(** * A fluent HTTP request builder: model and verification

    Shallow embedding of the Go package [http] of rrandall91/http
    (the Param, Request and Response sources).

    The package is glue over the Go standard library.  Everything that the
    package merely calls (net/http, net/url, encoding/json, encoding/xml,
    mime/multipart, os, io, time) is gathered in the class [Platform]; the
    package's own functions are translated line by line on top of it and
    every theorem holds for an arbitrary platform.  A small deterministic
    platform, [TestPlatform], is used to run the model on concrete inputs. *)

From stdpp Require Import gmap strings list pretty.
From Stdlib Require Import ZArith Ascii.

Local Open Scope Z_scope.

(** ** Data model *)

(** Go's [error] interface; only the message matters here. *)
Definition error := string.

(** [type Param struct { Key string; Value string }]. *)
Record Param := mkParam { Key : string; Value : string }.

(** [func newParam(key, value string) Param]. *)
Definition newParam (key value : string) : Param := mkParam key value.

(** The [io.Reader] values the package creates or meets.  An interface value
    that may be nil is an [option Reader]. *)
Inductive Reader :=
  | strings_NewReader (s : string)   (* strings.NewReader(s) *)
  | bytes_Buffer (b : string)        (* &b for a bytes.Buffer holding b *)
  | io_NopCloser (r : Reader)        (* io.NopCloser(r) *)
  | http_NoBody                      (* http.NoBody *)
  | stream (id : nat).               (* any other reader, e.g. a socket *)

(** [type Request struct]. *)
Record Request := mkRequest {
  Method : string;
  URL : string;
  Body : option Reader;
  Headers : list Param;
  Query : list Param
}.

(** Field assignments [r.Body = ...], [r.Headers = ...], [r.Query = ...]. *)
Definition set_Body (b : option Reader) (r : Request) : Request :=
  mkRequest (Method r) (URL r) b (Headers r) (Query r).
Definition set_Headers (h : list Param) (r : Request) : Request :=
  mkRequest (Method r) (URL r) (Body r) h (Query r).
Definition set_Query (q : list Param) (r : Request) : Request :=
  mkRequest (Method r) (URL r) (Body r) (Headers r) q.

(** [type Response struct].  [Duration] is a [time.Duration],
    a count of nanoseconds. *)
Module Response.
Record t := mk {
  StatusCode : Z;
  Duration : Z;
  Body : option Reader;
  Headers : list Param
}.
End Response.

(** ** The standard library's types that the package manipulates *)

(** net/url: [url.URL] (the fields that matter) and [url.Values], a
    [map[string][]string]. *)
Module url.
Record URL := mkURL {
  Scheme : string;
  Host : string;
  Path : string;
  RawQuery : string;
  Fragment : string
}.

Definition set_RawQuery (q : string) (u : URL) : URL :=
  mkURL (Scheme u) (Host u) (Path u) q (Fragment u).

(** [func (v Values) Add(key, value string)]:
    [v[key] = append(v[key], value)]. *)
Definition Values_Add (v : gmap string (list string)) (key value : string)
  : gmap string (list string) :=
  <[key := default [] (v !! key) ++ [value]]> v.
End url.

(** net/http: the native [http.Request] and [http.Response], and
    [http.Header], also a [map[string][]string]. *)
Module nethttp.
Record Request := mkRequest {
  Method : string;
  URL : url.URL;
  Header : gmap string (list string);
  Body : option Reader;
  ContentLength : Z
}.

Definition set_Header (h : gmap string (list string)) (r : Request) :=
  mkRequest (Method r) (URL r) h (Body r) (ContentLength r).
Definition set_URL (u : url.URL) (r : Request) :=
  mkRequest (Method r) u (Header r) (Body r) (ContentLength r).
Definition set_Body (b : option Reader) (r : Request) :=
  mkRequest (Method r) (URL r) (Header r) b (ContentLength r).

Record Response := mkResponse {
  StatusCode : Z;
  RespHeader : gmap string (list string);
  RespBody : option Reader
}.
End nethttp.

(** package time: an instant is a count of nanoseconds; [t.Sub(u)] is the
    difference, saturated to the range of [time.Duration] (an int64). *)
Module time.
Definition Time := Z.
Definition maxDuration : Z := 2 ^ 63 - 1.
Definition minDuration : Z := - 2 ^ 63.
Definition Sub (t u : Time) : Z :=
  Z.max minDuration (Z.min maxDuration (t - u)).
End time.

(** ** The platform: what the package calls but does not define *)

Class Platform := {
  (** the state outside the program: clock, file system, network, entropy *)
  World : Type;
  (** values of type [interface{}] handed to the JSON and XML encoders *)
  Any : Type;
  (** an open [*os.File] *)
  File : Type;
  (** a [*multipart.Writer] together with the [bytes.Buffer] it writes to *)
  MultipartWriter : Type;

  json_Marshal : Any -> string + error;
  xml_Marshal : Any -> string + error;
  (** the order in which one [for k, v := range m] visits a map *)
  map_range : gmap string string -> list (string * string);
  (** [func (v Values) Encode() string] *)
  Values_Encode : gmap string (list string) -> string;
  (** [func (u *URL) Query() Values] *)
  URL_Query : url.URL -> gmap string (list string);
  (** [textproto.CanonicalMIMEHeaderKey], applied by [Header.Add] *)
  CanonicalMIMEHeaderKey : string -> string;
  (** [http.NewRequest(method, url, body)] *)
  http_NewRequest : string -> string -> option Reader -> nethttp.Request + error;

  (** [multipart.NewWriter(&b)] on a fresh buffer; draws a random boundary *)
  multipart_NewWriter : World -> MultipartWriter * World;
  Writer_WriteField : MultipartWriter -> string -> string -> MultipartWriter;
  Writer_CreateFormFile :
    MultipartWriter -> string -> string -> MultipartWriter + error;
  Writer_Close : MultipartWriter -> MultipartWriter;
  (** the bytes accumulated in the buffer behind the writer *)
  Writer_Buffer : MultipartWriter -> string;

  os_Open : string -> World -> (File + error) * World;
  File_Close : File -> World -> World;
  (** [io.Copy(fw, f)]: what reached the part, and the error if any *)
  io_Copy : MultipartWriter -> File -> World ->
            (MultipartWriter * option error) * World;

  time_Now : World -> time.Time * World;
  (** [(&http.Client{}).Do(req)] *)
  Client_Do : nethttp.Request -> World -> (nethttp.Response + error) * World
}.

(** [func (h Header) Add(key, value string)]. *)
Definition Header_Add `{Platform} (h : gmap string (list string))
    (key value : string) : gmap string (list string) :=
  let key := CanonicalMIMEHeaderKey key in
  <[key := default [] (h !! key) ++ [value]]> h.

(** ** Methods as state transformers

    A method with receiver [r *Request] runs on a machine made of the
    receiver and the outside world; it may update either. *)

Record Machine `{Platform} := mkMachine { self : Request; world : World }.

Definition M `{Platform} (A : Type) : Type := Machine -> A * Machine.

Definition ret `{Platform} {A} (a : A) : M A := fun m => (a, m).
Definition bind `{Platform} {A B} (c : M A) (k : A -> M B) : M B :=
  fun m => let (a, m') := c m in k a m'.

Notation "x <- c ;; k" := (bind c (fun x => k))
  (at level 20, c at level 99, k at level 200, only parsing).
Notation "c ;; k" := (bind c (fun _ => k))
  (at level 100, k at level 200, right associativity, only parsing).

(** Reading the receiver, assigning to it, and calling into the world. *)
Definition this `{Platform} : M Request := fun m => (self m, m).
Definition assign `{Platform} (f : Request -> Request) : M unit :=
  fun m => (tt, mkMachine _ (f (self m)) (world m)).
Definition sys `{Platform} {A} (f : World -> A * World) : M A :=
  fun m => let (a, w) := f (world m) in (a, mkMachine _ (self m) w).

(** The value a call returns and the receiver it leaves behind. *)
Definition result `{Platform} {A} (c : M A) (m : Machine) : A := fst (c m).
Definition after `{Platform} {A} (c : M A) (m : Machine) : Request :=
  self (snd (c m)).

(** ** The Request constructor and methods *)

(** [func NewRequest(method, url string) *Request]: the other fields keep
    their zero values. *)
Definition NewRequest (method url : string) : Request :=
  mkRequest method url None [] [].

Section Package.
Context `{Platform}.

(** [func (r *Request) AddHeader(key, value string)]. *)
Definition AddHeader (key value : string) : M unit :=
  r <- this ;;
  assign (set_Headers (Headers r ++ [newParam key value])).

(** [func (r *Request) AddQuery(key, value string)]. *)
Definition AddQuery (key value : string) : M unit :=
  r <- this ;;
  assign (set_Query (Query r ++ [newParam key value])).

(** [func (r *Request) AddBody(body io.Reader)]. *)
Definition AddBody (body : option Reader) : M unit :=
  assign (set_Body body).

(** [func (r *Request) AddBodyString(body string)]. *)
Definition AddBodyString (body : string) : M unit :=
  assign (set_Body (Some (io_NopCloser (strings_NewReader body)))).

(** [func (r *Request) AddBodyJSON(body interface{})]. *)
Definition AddBodyJSON (body : Any) : M unit :=
  AddHeader "Content-Type" "application/json" ;;
  match json_Marshal body with
  | inr err => ret tt
  | inl b => AddBodyString b
  end.

(** [func (r *Request) AddBodyXML(body interface{})]. *)
Definition AddBodyXML (body : Any) : M unit :=
  AddHeader "Content-Type" "application/xml" ;;
  match xml_Marshal body with
  | inr err => ret tt
  | inl b => AddBodyString b
  end.

(** [func (r *Request) AddBodyForm(body map[string]string)]. *)
Definition AddBodyForm (body : gmap string string) : M unit :=
  AddHeader "Content-Type" "application/x-www-form-urlencoded" ;;
  let form :=
    foldl (fun form kv => url.Values_Add form (fst kv) (snd kv))
          ∅ (map_range body) in
  AddBodyString (Values_Encode form).

(** [func (r *Request) AddBodyMultipartForm(body map[string]string)]. *)
Definition AddBodyMultipartForm (body : gmap string string) : M unit :=
  AddHeader "Content-Type" "multipart/form-data" ;;
  w <- sys multipart_NewWriter ;;
  let w := foldl (fun w kv => Writer_WriteField w (fst kv) (snd kv))
                 w (map_range body) in
  let w := Writer_Close w in
  AddBody (Some (bytes_Buffer (Writer_Buffer w))).

(** [func (r *Request) AddBodyMultipartFormFile(body map[string]string,
    fileKey, fileName, filePath string)].  The deferred [f.Close()] runs
    when the function returns, after the body has been assigned. *)
Definition AddBodyMultipartFormFile (body : gmap string string)
    (fileKey fileName filePath : string) : M unit :=
  AddHeader "Content-Type" "multipart/form-data" ;;
  w <- sys multipart_NewWriter ;;
  let w := foldl (fun w kv => Writer_WriteField w (fst kv) (snd kv))
                 w (map_range body) in
  match Writer_CreateFormFile w fileKey fileName with
  | inr err => ret tt
  | inl fw =>
      f <- sys (os_Open filePath) ;;
      match f with
      | inr err => ret tt
      | inl f =>
          copied <- sys (io_Copy fw f) ;;
          let '(w, err) := copied in
          let w := Writer_Close w in
          AddBody (Some (bytes_Buffer (Writer_Buffer w))) ;;
          sys (fun world => (tt, File_Close f world))
      end
  end.

(** The loop of [GetHeader]:
    [for _, header := range r.Headers { if header.Key == key { return
    header.Value } }; return ""]. *)
Fixpoint GetHeader_range (headers : list Param) (key : string) : string :=
  match headers with
  | [] => ""
  | header :: rest =>
      if String.eqb (Key header) key then Value header
      else GetHeader_range rest key
  end.

(** [func (r *Request) GetHeader(key string) string]. *)
Definition GetHeader (key : string) : M string :=
  r <- this ;;
  ret (GetHeader_range (Headers r) key).

(** The loop of [GetQuery]. *)
Fixpoint GetQuery_range (queries : list Param) (key : string) : string :=
  match queries with
  | [] => ""
  | query :: rest =>
      if String.eqb (Key query) key then Value query
      else GetQuery_range rest key
  end.

(** [func (r *Request) GetQuery(key string) string]. *)
Definition GetQuery (key : string) : M string :=
  r <- this ;;
  ret (GetQuery_range (Query r) key).

(** [func (r *Request) make() *http.Request]; [None] is the nil pointer. *)
Definition make : M (option nethttp.Request) :=
  r <- this ;;
  match http_NewRequest (Method r) (URL r) (Body r) with
  | inr err => ret None
  | inl req =>
      let req :=
        foldl (fun req header =>
                 nethttp.set_Header
                   (Header_Add (nethttp.Header req) (Key header) (Value header))
                   req)
              req (Headers r) in
      let q := URL_Query (nethttp.URL req) in
      let q :=
        foldl (fun q query => url.Values_Add q (Key query) (Value query))
              q (Query r) in
      let req :=
        nethttp.set_URL (url.set_RawQuery (Values_Encode q) (nethttp.URL req))
                        req in
      let req := nethttp.set_Body (Some http_NoBody) req in
      ret (Some req)
  end.

(** [func (r *Request) Send()] returning a pair [*Response, error]. *)
Definition Send : M (option Response.t * option error) :=
  start <- sys time_Now ;;
  req <- make ;;
  match req with
  | None => ret (None, None)
  | Some req =>
      done <- sys (Client_Do req) ;;
      match done with
      | inr err => ret (None, Some err)
      | inl resp =>
          end_ <- sys time_Now ;;
          ret (Some (Response.mk (nethttp.StatusCode resp)
                                 (time.Sub end_ start)
                                 (nethttp.RespBody resp)
                                 []),
               None)
      end
  end.

(** The public operations that may follow [NewRequest], as data, so that
    a property can be stated over every sequence of calls. *)
Inductive Op :=
  | OpAddHeader (key value : string)
  | OpAddQuery (key value : string)
  | OpAddBody (body : option Reader)
  | OpAddBodyString (body : string)
  | OpAddBodyJSON (body : Any)
  | OpAddBodyXML (body : Any)
  | OpAddBodyForm (body : gmap string string)
  | OpAddBodyMultipartForm (body : gmap string string)
  | OpAddBodyMultipartFormFile (body : gmap string string)
      (fileKey fileName filePath : string)
  | OpGetHeader (key : string)
  | OpGetQuery (key : string).

(** One call; the value a getter returns is discarded. *)
Definition call (op : Op) : M unit :=
  match op with
  | OpAddHeader key value => AddHeader key value
  | OpAddQuery key value => AddQuery key value
  | OpAddBody body => AddBody body
  | OpAddBodyString body => AddBodyString body
  | OpAddBodyJSON body => AddBodyJSON body
  | OpAddBodyXML body => AddBodyXML body
  | OpAddBodyForm body => AddBodyForm body
  | OpAddBodyMultipartForm body => AddBodyMultipartForm body
  | OpAddBodyMultipartFormFile body fileKey fileName filePath =>
      AddBodyMultipartFormFile body fileKey fileName filePath
  | OpGetHeader key => GetHeader key ;; ret tt
  | OpGetQuery key => GetQuery key ;; ret tt
  end.

(** A sequence of calls, first to last. *)
Fixpoint calls (ops : list Op) : M unit :=
  match ops with
  | [] => ret tt
  | op :: rest => call op ;; calls rest
  end.

(** The header each call appends, read off the methods: [AddHeader] its
    argument, every [AddBody...] encoder its Content-Type, before it knows
    whether the body can be built. *)
Definition added_headers (op : Op) : list Param :=
  match op with
  | OpAddHeader key value => [newParam key value]
  | OpAddBodyJSON _ => [newParam "Content-Type" "application/json"]
  | OpAddBodyXML _ => [newParam "Content-Type" "application/xml"]
  | OpAddBodyForm _ =>
      [newParam "Content-Type" "application/x-www-form-urlencoded"]
  | OpAddBodyMultipartForm _ => [newParam "Content-Type" "multipart/form-data"]
  | OpAddBodyMultipartFormFile _ _ _ _ =>
      [newParam "Content-Type" "multipart/form-data"]
  | _ => []
  end.

(** The query parameter each call appends: only [AddQuery] has one. *)
Definition added_queries (op : Op) : list Param :=
  match op with
  | OpAddQuery key value => [newParam key value]
  | _ => []
  end.

(** The calls that contain an assignment to [r.Body]. *)
Definition is_body_op (op : Op) : bool :=
  match op with
  | OpAddBody _ | OpAddBodyString _ | OpAddBodyJSON _ | OpAddBodyXML _
  | OpAddBodyForm _ | OpAddBodyMultipartForm _
  | OpAddBodyMultipartFormFile _ _ _ _ => true
  | _ => false
  end.

(** A computation appends [hs] to the headers and [qs] to the query of the
    receiver, and nothing else to either. *)
Definition appends {A} (hs qs : list Param) (c : M A) : Prop :=
  forall m : Machine,
    Headers (self (snd (c m))) = Headers (self m) ++ hs
    /\ Query (self (snd (c m))) = Query (self m) ++ qs.

(** A computation leaves the body of the receiver alone. *)
Definition keeps_body {A} (c : M A) : Prop :=
  forall m : Machine, Body (self (snd (c m))) = Body (self m).

(** A computation keeps the Method and URL of the receiver. *)
Definition keeps {A} (c : M A) : Prop :=
  forall m : Machine,
    Method (self (snd (c m))) = Method (self m)
    /\ URL (self (snd (c m))) = URL (self m).

End Package.

(** ** A deterministic platform for running the model

    A stand-in for the Go runtime and standard library, simplified where
    the package does not look: JSON and XML text is not escaped, a URL is
    split at its delimiters only, and the network knows one host. *)

Module TestPlatform.

(** Payloads for the encoders: a string encodes, a channel does not. *)
Inductive GoValue := VString (s : string) | VChan.

Inductive FileNode := Regular (data : string) | Directory.

Record TWorld := mkWorld {
  clock : Z;                      (* nanoseconds *)
  entropy : nat;                  (* boundaries drawn so far *)
  fs : gmap string FileNode;
  open_files : nat
}.

Record Writer := mkWriter { boundary : string; buffer : string }.

Definition quote : string := String "034"%char "".
Definition crlf : string := String "013"%char (String "010"%char "").

Definition json_Marshal (v : GoValue) : string + error :=
  match v with
  | VString s => inl (quote +:+ s +:+ quote)
  | VChan => inr "json: unsupported type: chan int"
  end.

Definition xml_Marshal (v : GoValue) : string + error :=
  match v with
  | VString s => inl ("<string>" +:+ s +:+ "</string>")
  | VChan => inr "xml: unsupported type: chan int"
  end.

Definition between (lo hi : nat) (c : ascii) : bool :=
  (lo <=? nat_of_ascii c)%nat && (nat_of_ascii c <=? hi)%nat.
Definition is_alnum (c : ascii) : bool :=
  between 48 57 c || between 65 90 c || between 97 122 c.
Definition one_of (set : string) (c : ascii) : bool :=
  existsb (Ascii.eqb c) (String.list_ascii_of_string set).

(** RFC 7230 token characters ([httpguts.IsTokenRune]). *)
Definition is_token_char (c : ascii) : bool :=
  is_alnum c || one_of "!#$%&'*+-.^_`|~" c.
Definition is_token (s : string) : bool :=
  forallb is_token_char (String.list_ascii_of_string s).

Definition upper (c : ascii) : ascii :=
  if between 97 122 c then ascii_of_nat (nat_of_ascii c - 32) else c.
Definition lower (c : ascii) : ascii :=
  if between 65 90 c then ascii_of_nat (nat_of_ascii c + 32) else c.

Fixpoint canonical (up : bool) (s : string) : string :=
  match s with
  | EmptyString => EmptyString
  | String c rest =>
      String (if up then upper c else lower c)
             (canonical (Ascii.eqb c "-") rest)
  end.

Definition CanonicalMIMEHeaderKey (s : string) : string :=
  if is_token s then canonical true s else s.

Definition hex_digit (n : nat) : ascii :=
  nth n (String.list_ascii_of_string "0123456789ABCDEF") "0"%char.

Fixpoint QueryEscape (s : string) : string :=
  match s with
  | EmptyString => EmptyString
  | String c rest =>
      (if is_alnum c || one_of "-_.~" c then String c ""
       else if Ascii.eqb c " " then "+"
       else String "%" (String (hex_digit (nat_of_ascii c / 16))
                          (String (hex_digit (nat_of_ascii c mod 16)) "")))
      +:+ QueryEscape rest
  end.

Fixpoint insert_sorted (k : string) (ks : list string) : list string :=
  match ks with
  | [] => [k]
  | k' :: rest =>
      if String.leb k k' then k :: ks else k' :: insert_sorted k rest
  end.
Definition sort_keys (ks : list string) : list string :=
  foldr insert_sorted [] ks.

Definition join (sep : string) (parts : list string) : string :=
  String.concat sep parts.

(** Keys in byte order, each value as [key=value], joined by [&]. *)
Definition Values_Encode (v : gmap string (list string)) : string :=
  join "&"
    (flat_map
       (fun k => (fun x => QueryEscape k +:+ "=" +:+ QueryEscape x)
                   <$> default [] (v !! k))
       (sort_keys (fst <$> map_to_list v))).

(** [split c s]: the text before the first [c], and the text after it
    when [c] occurs. *)
Fixpoint split (c : ascii) (s : string) : string * option string :=
  match s with
  | EmptyString => (EmptyString, None)
  | String d rest =>
      if Ascii.eqb c d then (EmptyString, Some rest)
      else let (a, b) := split c rest in (String d a, b)
  end.

Fixpoint split_all (fuel : nat) (c : ascii) (s : string) : list string :=
  match fuel with
  | O => [s]
  | S fuel =>
      match split c s with
      | (a, None) => [a]
      | (a, Some b) => a :: split_all fuel c b
      end
  end.

Definition ParseQuery (raw : string) : gmap string (list string) :=
  foldl (fun v pair =>
           if String.eqb pair "" then v
           else let (k, x) := split "=" pair in
                url.Values_Add v k (default "" x))
        ∅ (split_all (String.length raw) "&" raw).

Definition URL_Query (u : url.URL) : gmap string (list string) :=
  ParseQuery (url.RawQuery u).

Definition is_ctl (c : ascii) : bool :=
  (nat_of_ascii c <? 32)%nat || (nat_of_ascii c =? 127)%nat.

(** [scheme://host/path?query#fragment], split at its delimiters. *)
Definition url_Parse (raw : string) : url.URL + error :=
  if existsb (fun c => is_ctl c || Ascii.eqb c " ")
             (String.list_ascii_of_string raw)
  then inr "net/url: invalid character in URL"
  else
    let (rest, frag) := split "#" raw in
    let (rest, query) := split "?" rest in
    let (scheme, rest) :=
      match split ":" rest with
      | (scheme, Some (String "/" (String "/" rest))) => (scheme, rest)
      | _ => ("", rest)
      end in
    let (host, path) := split "/" rest in
    inl (url.mkURL scheme host
           (match path with Some p => "/" +:+ p | None => "" end)
           (default "" query) (default "" frag)).

Definition URL_String (u : url.URL) : string :=
  (if String.eqb (url.Scheme u) "" then "" else url.Scheme u +:+ "://")
  +:+ url.Host u +:+ url.Path u
  +:+ (if String.eqb (url.RawQuery u) "" then ""
       else "?" +:+ url.RawQuery u)
  +:+ (if String.eqb (url.Fragment u) "" then ""
       else "#" +:+ url.Fragment u).

Definition http_NewRequest (method rawurl : string) (body : option Reader)
  : nethttp.Request + error :=
  let method := if String.eqb method "" then "GET" else method in
  if negb (is_token method) then inr "net/http: invalid method"
  else
    match url_Parse rawurl with
    | inr err => inr err
    | inl u =>
        inl (nethttp.mkRequest method u ∅
               (match body with
                | None => None
                | Some (io_NopCloser r) => Some (io_NopCloser r)
                | Some http_NoBody => Some http_NoBody
                | Some r => Some (io_NopCloser r)
                end)
               (match body with
                | Some (bytes_Buffer b) => Z.of_nat (String.length b)
                | Some (strings_NewReader s) => Z.of_nat (String.length s)
                | _ => 0
                end))
    end.

Definition multipart_NewWriter (w : TWorld) : Writer * TWorld :=
  (mkWriter ("boundary" +:+ pretty (entropy w)) "",
   mkWorld (clock w) (S (entropy w)) (fs w) (open_files w)).

Definition part_header (w : Writer) (disposition : string) : string :=
  (if String.eqb (buffer w) "" then "" else crlf)
  +:+ "--" +:+ boundary w +:+ crlf
  +:+ "Content-Disposition: form-data; " +:+ disposition +:+ crlf.

Definition Writer_WriteField (w : Writer) (key value : string) : Writer :=
  mkWriter (boundary w)
    (buffer w +:+ part_header w ("name=" +:+ quote +:+ key +:+ quote)
     +:+ crlf +:+ value).

Definition Writer_CreateFormFile (w : Writer) (key name : string)
  : Writer + error :=
  inl (mkWriter (boundary w)
         (buffer w
          +:+ part_header w ("name=" +:+ quote +:+ key +:+ quote
                             +:+ "; filename=" +:+ quote +:+ name +:+ quote)
          +:+ "Content-Type: application/octet-stream" +:+ crlf +:+ crlf)).

Definition Writer_Close (w : Writer) : Writer :=
  mkWriter (boundary w)
    (buffer w +:+ crlf +:+ "--" +:+ boundary w +:+ "--" +:+ crlf).

(** Opening a directory succeeds; reading from it does not. *)
Definition os_Open (path : string) (w : TWorld)
  : ((string * FileNode) + error) * TWorld :=
  match fs w !! path with
  | None => (inr ("open " +:+ path +:+ ": no such file or directory"), w)
  | Some node =>
      (inl (path, node),
       mkWorld (clock w) (entropy w) (fs w) (S (open_files w)))
  end.

Definition File_Close (f : string * FileNode) (w : TWorld) : TWorld :=
  mkWorld (clock w) (entropy w) (fs w) (Nat.pred (open_files w)).

Definition io_Copy (fw : Writer) (f : string * FileNode) (w : TWorld)
  : (Writer * option error) * TWorld :=
  match snd f with
  | Regular data => ((mkWriter (boundary fw) (buffer fw +:+ data), None), w)
  | Directory => ((fw, Some ("read " +:+ fst f +:+ ": is a directory")), w)
  end.

Definition tick (d : Z) (w : TWorld) : TWorld :=
  mkWorld (clock w + d) (entropy w) (fs w) (open_files w).

Definition time_Now (w : TWorld) : time.Time * TWorld :=
  (clock w, tick 1000 w).

(** One server, [example.com], answers every request with status 200. *)
Definition Client_Do (req : nethttp.Request) (w : TWorld)
  : (nethttp.Response + error) * TWorld :=
  if String.eqb (url.Host (nethttp.URL req)) "example.com"
  then (inl (nethttp.mkResponse 200 ∅ (Some (stream 0))), tick 5000000 w)
  else (inr "dial tcp: lookup: no such host", tick 2000000 w).

#[export] Instance platform : Platform :=
  Build_Platform TWorld GoValue (string * FileNode) Writer
    json_Marshal xml_Marshal map_to_list Values_Encode URL_Query
    CanonicalMIMEHeaderKey http_NewRequest
    multipart_NewWriter Writer_WriteField Writer_CreateFormFile
    Writer_Close buffer
    os_Open File_Close io_Copy
    time_Now Client_Do.

(** A world with one regular file and one directory, and a machine
    holding a given request in it. *)
Definition world0 : TWorld :=
  mkWorld 0 0
    (<["/etc/hostname" := Regular "builder"]> (<["/tmp" := Directory]> ∅)) 0.

Definition machine (r : Request) : Machine := mkMachine _ r world0.

(** The requests of the package's tests. *)
Definition fresh : Request := NewRequest "GET" "http://example.com".

Definition with_body : Request :=
  after (calls [OpAddHeader "Content-Type" "application/json";
                OpAddHeader "Accept" "application/json";
                OpAddQuery "foo" "bar";
                OpAddQuery "baz" "qux";
                OpAddBody (Some (strings_NewReader "hello world"))])
        (machine fresh).

(** What [with_body] materializes to. *)
Definition with_body_native : nethttp.Request :=
  nethttp.mkRequest "GET"
    (url.mkURL "http" "example.com" "" "baz=qux&foo=bar" "")
    (<["Accept" := ["application/json"]]>
       (<["Content-Type" := ["application/json"]]> ∅))
    (Some http_NoBody) 11.

Definition fresh_native : nethttp.Request :=
  nethttp.mkRequest "GET" (url.mkURL "http" "example.com" "" "" "") ∅
    (Some http_NoBody) 0.

Definition ok_response : nethttp.Response :=
  nethttp.mkResponse 200 ∅ (Some (stream 0)).

(** A method that is not a token: [http.NewRequest] rejects it. *)
Definition malformed : Request := NewRequest "BAD METHOD" "http://example.com".

(** The same header key added twice. *)
Definition repeated : Request :=
  after (calls [OpAddHeader "Content-Type" "application/json";
                OpAddHeader "Accept" "text/html";
                OpAddHeader "Accept" "application/json"])
        (machine fresh).
End TestPlatform.

(** ** Properties of the package, for every platform *)

Section Facts.
Context `{Platform}.

Implicit Types (m : Machine) (r : Request) (key value : string).

(** *** How the primitive steps act on a machine *)

Lemma this_run m : this m = (self m, m).
Proof. reflexivity. Qed.

Lemma assign_run f m : assign f m = (tt, mkMachine _ (f (self m)) (world m)).
Proof. reflexivity. Qed.

Lemma sys_self {A} (f : World -> A * World) m : self (snd (sys f m)) = self m.
Proof. unfold sys. destruct (f (world m)); reflexivity. Qed.

Lemma sys_result {A} (f : World -> A * World) m :
  fst (sys f m) = fst (f (world m)).
Proof. unfold sys. destruct (f (world m)); reflexivity. Qed.

Lemma sys_world {A} (f : World -> A * World) m :
  world (snd (sys f m)) = snd (f (world m)).
Proof. unfold sys. destruct (f (world m)); reflexivity. Qed.

Lemma sys_run {A} (f : World -> A * World) m a w :
  f (world m) = (a, w) -> sys f m = (a, mkMachine _ (self m) w).
Proof. intros E. unfold sys. rewrite E. reflexivity. Qed.

Lemma machine_eta m : mkMachine _ (self m) (world m) = m.
Proof. destruct m; reflexivity. Qed.

Lemma AddHeader_run key value m :
  AddHeader key value m =
  (tt, mkMachine _ (set_Headers (Headers (self m) ++ [newParam key value])
                                (self m)) (world m)).
Proof. reflexivity. Qed.

Lemma AddBody_run body m :
  AddBody body m = (tt, mkMachine _ (set_Body body (self m)) (world m)).
Proof. reflexivity. Qed.

Lemma AddBodyString_run body m :
  AddBodyString body m =
  (tt, mkMachine _
         (set_Body (Some (io_NopCloser (strings_NewReader body))) (self m))
         (world m)).
Proof. reflexivity. Qed.

(** *** The lookup loops *)

Lemma GetHeader_range_absent (ps : list Param) key :
  (forall p, p ∈ ps -> Key p <> key) -> GetHeader_range ps key = "".
Proof.
  induction ps as [|p ps IH]; intros Hno; [reflexivity|].
  simpl. destruct (String.eqb_spec (Key p) key) as [Heq|_].
  - exfalso. apply (Hno p); [left | exact Heq].
  - apply IH. intros q Hq. apply Hno. right. exact Hq.
Qed.

Lemma GetHeader_range_first (ps : list Param) key (i : nat) (p : Param) :
  ps !! i = Some p -> Key p = key ->
  (forall (j : nat) q, (j < i)%nat -> ps !! j = Some q -> Key q <> key) ->
  GetHeader_range ps key = Value p.
Proof.
  revert i. induction ps as [|q ps IH]; intros i Hi Hkey Hbefore.
  - discriminate.
  - simpl. destruct i as [|i].
    + injection Hi as ->. rewrite Hkey, String.eqb_refl. reflexivity.
    + destruct (String.eqb_spec (Key q) key) as [Heq|_].
      * exfalso. apply (Hbefore 0%nat q); [lia | reflexivity | exact Heq].
      * apply (IH i); [exact Hi | exact Hkey |].
        intros j q' Hj Hq'. apply (Hbefore (S j) q'); [lia | exact Hq'].
Qed.

Lemma GetHeader_range_app (ps qs : list Param) key :
  GetHeader_range (ps ++ qs) key =
  if existsb (fun p => String.eqb (Key p) key) ps
  then GetHeader_range ps key else GetHeader_range qs key.
Proof.
  induction ps as [|p ps IH]; [reflexivity|].
  simpl. destruct (String.eqb (Key p) key); [reflexivity | exact IH].
Qed.

Lemma existsb_key_absent (ps : list Param) key :
  (forall p, p ∈ ps -> Key p <> key) ->
  existsb (fun p => String.eqb (Key p) key) ps = false.
Proof.
  induction ps as [|p ps IH]; intros Hno; [reflexivity|].
  simpl. destruct (String.eqb_spec (Key p) key) as [Heq|_].
  - exfalso. apply (Hno p); [left | exact Heq].
  - apply IH. intros q Hq. apply Hno. right. exact Hq.
Qed.

(** The two loops are the same loop over different fields. *)
Lemma GetQuery_range_eq (ps : list Param) key :
  GetQuery_range ps key = GetHeader_range ps key.
Proof. induction ps as [|p ps IH]; simpl; [|rewrite IH]; reflexivity. Qed.

(** *** Materialization *)

Lemma make_machine m : snd (make m) = m.
Proof.
  unfold make, bind, this.
  destruct (http_NewRequest _ _ _); reflexivity.
Qed.

Lemma make_reads_self m m' :
  self m = self m' -> fst (make m) = fst (make m').
Proof.
  intros E. unfold make, bind, this. rewrite E.
  destruct (http_NewRequest _ _ _); reflexivity.
Qed.

(** C1: whenever [make] produces a native request, that request is the one
    [http.NewRequest] built, with every header added in order, the query
    re-encoded from every query parameter in order, and then its body
    overwritten with [http.NoBody], whatever body the Request holds; the
    Request itself is not modified. *)
Theorem make_overwrites_body m (req : nethttp.Request) :
  result make m = Some req ->
  nethttp.Body req = Some http_NoBody
  /\ (exists req0,
        http_NewRequest (Method (self m)) (URL (self m)) (Body (self m))
          = inl req0
        /\ nethttp.Header req =
             foldl (fun h header => Header_Add h (Key header) (Value header))
                   (nethttp.Header req0) (Headers (self m))
        /\ url.RawQuery (nethttp.URL req) =
             Values_Encode
               (foldl (fun q query =>
                         url.Values_Add q (Key query) (Value query))
                      (URL_Query (nethttp.URL req0)) (Query (self m))))
  /\ after make m = self m.
Proof.
  unfold result, after. rewrite make_machine.
  unfold make, bind, this. simpl.
  destruct (http_NewRequest _ _ _) as [req0|err] eqn:Enew; simpl;
    [|discriminate].
  intros [= <-]. split; [reflexivity|]. split; [|reflexivity].
  exists req0. split; [reflexivity|].
  assert (Hfold : forall (hs : list Param) q0,
     let q := foldl (fun req header =>
                 nethttp.set_Header
                   (Header_Add (nethttp.Header req) (Key header) (Value header))
                   req) q0 hs in
     nethttp.Header q =
       foldl (fun h header => Header_Add h (Key header) (Value header))
             (nethttp.Header q0) hs
     /\ nethttp.URL q = nethttp.URL q0).
  { induction hs as [|h hs IH]; intros q0; simpl; [split; reflexivity|].
    destruct (IH (nethttp.set_Header
                    (Header_Add (nethttp.Header q0) (Key h) (Value h)) q0))
      as [IH1 IH2].
    split; [exact IH1 | exact IH2]. }
  destruct (Hfold (Headers (self m)) req0) as [Hh Hu].
  simpl in Hh, Hu. rewrite Hu. split; [exact Hh | reflexivity].
Qed.

(** C2: when materialization fails ([make] yields nil), [Send] returns a nil
    Response together with a nil error. *)
Theorem Send_nil_nil_when_make_fails m :
  result make m = None -> result Send m = (None, None).
Proof.
  unfold result. intros Hmake. unfold Send, bind.
  destruct (sys time_Now m) as [start m1] eqn:Estart.
  assert (Hself : self m1 = self m).
  { change m1 with (snd (start, m1)). rewrite <- Estart. apply sys_self. }
  destruct (make m1) as [req m2] eqn:Emake.
  assert (Hreq : req = None).
  { change req with (fst (req, m2)). rewrite <- Emake.
    rewrite (make_reads_self m1 m Hself). exact Hmake. }
  subst req. reflexivity.
Qed.

(** The abort paths of [AddBodyMultipartFormFile] that the code does take:
    a part that cannot be created, or a file that cannot be opened, leaves
    the body as it was and keeps the header. *)
Lemma AddBodyMultipartFormFile_create_fails m body fileKey fileName filePath
    err :
  Writer_CreateFormFile
    (foldl (fun w kv => Writer_WriteField w (fst kv) (snd kv))
           (fst (multipart_NewWriter (world m))) (map_range body))
    fileKey fileName = inr err ->
  let r' := after (AddBodyMultipartFormFile body fileKey fileName filePath) m in
  Body r' = Body (self m)
  /\ Headers r' =
       Headers (self m) ++ [newParam "Content-Type" "multipart/form-data"].
Proof.
  intros Hc. unfold after, AddBodyMultipartFormFile, bind.
  rewrite AddHeader_run.
  destruct (multipart_NewWriter (world m)) as [w0 w1] eqn:Enew.
  erewrite sys_run by (simpl; exact Enew). simpl in Hc |- *.
  rewrite Hc. split; reflexivity.
Qed.

Lemma AddBodyMultipartFormFile_open_fails m body fileKey fileName filePath
    err :
  fst (os_Open filePath (snd (multipart_NewWriter (world m)))) = inr err ->
  let r' := after (AddBodyMultipartFormFile body fileKey fileName filePath) m in
  Body r' = Body (self m)
  /\ Headers r' =
       Headers (self m) ++ [newParam "Content-Type" "multipart/form-data"].
Proof.
  intros Ho. unfold after, AddBodyMultipartFormFile, bind.
  rewrite AddHeader_run.
  destruct (multipart_NewWriter (world m)) as [w0 w1] eqn:Enew.
  erewrite sys_run by (simpl; exact Enew). simpl in Ho |- *.
  destruct (Writer_CreateFormFile _ _ _) as [fw|e]; [|split; reflexivity].
  destruct (os_Open filePath w1) as [[f|e] w2] eqn:Eopen; simpl in Ho;
    [discriminate|].
  erewrite sys_run by (simpl; exact Eopen). split; reflexivity.
Qed.

(** Once the part is created and the file opened, the body is assigned
    whether or not the copy reported an error. *)
Lemma AddBodyMultipartFormFile_copy_error_ignored m body fileKey fileName
    filePath fw f :
  let w1 := snd (multipart_NewWriter (world m)) in
  Writer_CreateFormFile
    (foldl (fun w kv => Writer_WriteField w (fst kv) (snd kv))
           (fst (multipart_NewWriter (world m))) (map_range body))
    fileKey fileName = inl fw ->
  fst (os_Open filePath w1) = inl f ->
  Body (after (AddBodyMultipartFormFile body fileKey fileName filePath) m) =
  Some (bytes_Buffer
          (Writer_Buffer
             (Writer_Close
                (fst (fst (io_Copy fw f (snd (os_Open filePath w1)))))))).
Proof.
  intros w1 Hc Ho. subst w1.
  unfold after, AddBodyMultipartFormFile, bind.
  rewrite AddHeader_run.
  destruct (multipart_NewWriter (world m)) as [w0 w1] eqn:Enew.
  erewrite sys_run by (simpl; exact Enew). simpl in Hc, Ho |- *.
  rewrite Hc.
  destruct (os_Open filePath w1) as [[f'|e] w2] eqn:Eopen; simpl in Ho |- *;
    [|discriminate].
  injection Ho as ->.
  erewrite sys_run by (simpl; exact Eopen).
  destruct (io_Copy fw f w2) as [[w' e] w3] eqn:Ecopy.
  erewrite sys_run by (simpl; exact Ecopy). reflexivity.
Qed.

(** C4: [AddBodyJSON] appends the header [Content-Type: application/json]
    whatever the encoder answers; when the encoder fails the body is left as
    it was (unset when it was unset); the call returns nothing. *)
Theorem AddBodyJSON_header_and_silent_failure (body : Any) m :
  Headers (after (AddBodyJSON body) m) =
    Headers (self m) ++ [newParam "Content-Type" "application/json"]
  /\ (forall err, json_Marshal body = inr err ->
        Body (after (AddBodyJSON body) m) = Body (self m)
        /\ (Body (self m) = None -> Body (after (AddBodyJSON body) m) = None)
        /\ result (AddBodyJSON body) m = tt).
Proof.
  unfold after, result, AddBodyJSON, bind. rewrite AddHeader_run.
  destruct (json_Marshal body) as [b|e].
  - split; [reflexivity | intros err [=]].
  - split; [reflexivity|]. intros err _. simpl.
    split; [reflexivity|]. split; [intros ->; reflexivity | reflexivity].
Qed.

(** C5, as amended: on a Request that has no header with the given key,
    [AddHeader(key, value)] followed by [GetHeader(key)] returns [value], and
    [GetHeader(key)] alone returns the empty string. *)
Theorem AddHeader_GetHeader_fresh_key m key value :
  (forall p, p ∈ Headers (self m) -> Key p <> key) ->
  result (AddHeader key value ;; GetHeader key) m = value
  /\ result (GetHeader key) m = "".
Proof.
  intros Hno. unfold result, bind. rewrite AddHeader_run.
  unfold GetHeader, bind, this, ret. simpl. split.
  - rewrite GetHeader_range_app, (existsb_key_absent _ _ Hno). simpl.
    rewrite String.eqb_refl. reflexivity.
  - apply GetHeader_range_absent. exact Hno.
Qed.

(** C6: [GetHeader(key)] returns the value of the first Param of the headers
    whose key is [key], the empty string when there is none, and cannot tell
    an absent key from one added with an empty value; [GetQuery] does the
    same over the query parameters. *)
Theorem GetHeader_GetQuery_first_match m key :
  ((forall (i : nat) p,
      Headers (self m) !! i = Some p -> Key p = key ->
      (forall (j : nat) q, (j < i)%nat -> Headers (self m) !! j = Some q ->
                           Key q <> key) ->
      result (GetHeader key) m = Value p)
   /\ ((forall p, p ∈ Headers (self m) -> Key p <> key) ->
       result (GetHeader key) m = "")
   /\ result (AddHeader key "" ;; GetHeader key) m = result (GetHeader key) m)
  /\
  ((forall (i : nat) p,
      Query (self m) !! i = Some p -> Key p = key ->
      (forall (j : nat) q, (j < i)%nat -> Query (self m) !! j = Some q ->
                           Key q <> key) ->
      result (GetQuery key) m = Value p)
   /\ ((forall p, p ∈ Query (self m) -> Key p <> key) ->
       result (GetQuery key) m = "")
   /\ result (AddQuery key "" ;; GetQuery key) m = result (GetQuery key) m).
Proof.
  assert (Hshadow : forall ps,
            GetHeader_range (ps ++ [newParam key ""]) key =
            GetHeader_range ps key).
  { intros ps. rewrite GetHeader_range_app.
    destruct (existsb _ ps) eqn:E; [reflexivity|].
    simpl. rewrite String.eqb_refl.
    symmetry. apply GetHeader_range_absent. intros p Hp Hk.
    assert (existsb (fun p => String.eqb (Key p) key) ps = true) as E'.
    { apply existsb_exists. exists p. split.
      - apply list_elem_of_In. exact Hp.
      - rewrite Hk. apply String.eqb_refl. }
    congruence. }
  unfold result, bind, GetHeader, GetQuery, AddHeader, AddQuery, bind, this,
    assign, ret; simpl.
  repeat split.
  - apply GetHeader_range_first.
  - apply GetHeader_range_absent.
  - apply Hshadow.
  - intros i p. rewrite (GetQuery_range_eq (Query (self m))).
    apply GetHeader_range_first.
  - rewrite (GetQuery_range_eq (Query (self m))).
    apply GetHeader_range_absent.
  - rewrite (GetQuery_range_eq (Query (self m))),
      (GetQuery_range_eq (Query (self m) ++ _)).
    apply Hshadow.
Qed.

(** C7: when the request materializes and the client answers without error,
    [Send] returns a Response carrying the native status code and body
    stream, the time elapsed between the clock reading taken on entry and
    the one taken after the answer, and no headers, together with a nil
    error. *)
Theorem Send_success_response m (req : nethttp.Request)
    (resp : nethttp.Response) :
  let start := fst (time_Now (world m)) in
  let w1 := snd (time_Now (world m)) in
  let end_ := fst (time_Now (snd (Client_Do req w1))) in
  result make m = Some req ->
  fst (Client_Do req w1) = inl resp ->
  result Send m =
    (Some (Response.mk (nethttp.StatusCode resp) (time.Sub end_ start)
                       (nethttp.RespBody resp) []),
     None)
  /\ (time.minDuration <= end_ - start <= time.maxDuration ->
      time.Sub end_ start = end_ - start).
Proof.
  intros start w1 end_ Hmake Hdo. split.
  - subst start w1 end_. unfold result in *. unfold Send, bind.
    destruct (time_Now (world m)) as [t0 w] eqn:Estart.
    erewrite sys_run by exact Estart. simpl in Hdo |- *.
    pose (m1 := mkMachine _ (self m) w).
    assert (Hm1 : make m1 = (Some req, m1)).
    { rewrite (surjective_pairing (make m1)), make_machine.
      rewrite (make_reads_self m1 m eq_refl), Hmake. reflexivity. }
    fold m1. rewrite Hm1.
    destruct (Client_Do req w) as [done w2] eqn:Edo.
    erewrite sys_run by (simpl; exact Edo).
    simpl in Hdo. subst done. simpl.
    destruct (time_Now w2) as [t1 w3] eqn:Eend.
    erewrite sys_run by (simpl; exact Eend). reflexivity.
  - unfold time.Sub. lia.
Qed.

(** *** Method and URL are never assigned *)

Lemma keeps_ret {A} (a : A) : keeps (ret a).
Proof. intros m. split; reflexivity. Qed.

Lemma keeps_this : keeps this.
Proof. intros m. split; reflexivity. Qed.

Lemma keeps_sys {A} (f : World -> A * World) : keeps (sys f).
Proof. intros m. rewrite sys_self. split; reflexivity. Qed.

Lemma keeps_assign (f : Request -> Request) :
  (forall r, Method (f r) = Method r /\ URL (f r) = URL r) ->
  keeps (assign f).
Proof. intros Hf m. apply Hf. Qed.

Lemma keeps_bind {A B} (c : M A) (k : A -> M B) :
  keeps c -> (forall a, keeps (k a)) -> keeps (bind c k).
Proof.
  intros Hc Hk m. unfold bind.
  destruct (c m) as [a m1] eqn:E.
  destruct (Hk a m1) as [H1 H2]. destruct (Hc m) as [H3 H4].
  rewrite E in H3, H4. simpl in H3, H4. split; congruence.
Qed.

Lemma keeps_AddHeader key value : keeps (AddHeader key value).
Proof.
  apply keeps_bind; [apply keeps_this|].
  intros r. apply keeps_assign. intros r'. split; reflexivity.
Qed.

Lemma keeps_AddBody body : keeps (AddBody body).
Proof. apply keeps_assign. intros r. split; reflexivity. Qed.

Lemma keeps_AddBodyString body : keeps (AddBodyString body).
Proof. apply keeps_assign. intros r. split; reflexivity. Qed.

Lemma keeps_call (op : Op) : keeps (call op).
Proof.
  destruct op; simpl.
  - apply keeps_AddHeader.
  - apply keeps_bind; [apply keeps_this|].
    intros r. apply keeps_assign. intros r'. split; reflexivity.
  - apply keeps_AddBody.
  - apply keeps_AddBodyString.
  - apply keeps_bind; [apply keeps_AddHeader|]. intros _.
    destruct (json_Marshal body); [apply keeps_AddBodyString | apply keeps_ret].
  - apply keeps_bind; [apply keeps_AddHeader|]. intros _.
    destruct (xml_Marshal body); [apply keeps_AddBodyString | apply keeps_ret].
  - apply keeps_bind; [apply keeps_AddHeader|]. intros _.
    cbv zeta. apply keeps_AddBodyString.
  - apply keeps_bind; [apply keeps_AddHeader|]. intros _.
    apply keeps_bind; [apply keeps_sys|]. intros w.
    cbv zeta. apply keeps_AddBody.
  - apply keeps_bind; [apply keeps_AddHeader|]. intros _.
    apply keeps_bind; [apply keeps_sys|]. intros w. cbv zeta.
    destruct (Writer_CreateFormFile _ _ _) as [fw|e]; [|apply keeps_ret].
    apply keeps_bind; [apply keeps_sys|]. intros [f|e]; [|apply keeps_ret].
    apply keeps_bind; [apply keeps_sys|]. intros [w' e].
    cbv zeta. apply keeps_bind; [apply keeps_AddBody|]. intros _.
    apply keeps_sys.
  - apply keeps_bind; [|intros; apply keeps_ret].
    apply keeps_bind; [apply keeps_this | intros; apply keeps_ret].
  - apply keeps_bind; [|intros; apply keeps_ret].
    apply keeps_bind; [apply keeps_this | intros; apply keeps_ret].
Qed.

Lemma keeps_calls (ops : list Op) : keeps (calls ops).
Proof.
  induction ops as [|op ops IH]; simpl.
  - apply keeps_ret.
  - apply keeps_bind; [apply keeps_call | intros _; exact IH].
Qed.

(** C8: [NewRequest(method, url)] sets Method and URL to its arguments, and
    no sequence of builder and getter calls changes either. *)
Theorem Method_URL_fixed_at_construction (method url : string)
    (ops : list Op) (w : World) :
  Method (NewRequest method url) = method
  /\ URL (NewRequest method url) = url
  /\ Method (after (calls ops) (mkMachine _ (NewRequest method url) w))
     = method
  /\ URL (after (calls ops) (mkMachine _ (NewRequest method url) w)) = url.
Proof.
  split; [reflexivity|]. split; [reflexivity|].
  apply (keeps_calls ops (mkMachine _ (NewRequest method url) w)).
Qed.


(** C10: [GetHeader] and [GetQuery] leave the receiver (Method, URL, Body,
    Headers and Query) and the world exactly as they found them. *)
Theorem getters_change_nothing m key :
  (snd (GetHeader key m) = m /\ after (GetHeader key) m = self m)
  /\ (snd (GetQuery key m) = m /\ after (GetQuery key) m = self m).
Proof. repeat split. Qed.

End Facts.

(** ** Further properties of the package, for every platform *)

Section MoreFacts.
Context `{Platform}.

Implicit Types (m : Machine) (r : Request) (key value : string).

(** *** Appending under a key

    [Header.Add] and [Values.Add] both append a value to the slice stored
    under a key, the former after normalizing the key.  [norm] is that
    normalization. *)

Lemma foldl_append_lookup (norm : string -> string) (ps : list Param)
    (h0 : gmap string (list string)) (ck : string) :
  foldl (fun h p =>
           <[norm (Key p) := default [] (h !! norm (Key p)) ++ [Value p]]> h)
        h0 ps !! ck =
  match Value <$> filter (fun p => norm (Key p) = ck) ps with
  | [] => h0 !! ck
  | vs => Some (default [] (h0 !! ck) ++ vs)
  end.
Proof.
  revert h0. induction ps as [|p ps IH]; intros h0; [reflexivity|].
  simpl foldl. rewrite IH.
  destruct (decide (norm (Key p) = ck)) as [E|E].
  - rewrite filter_cons_True by exact E. rewrite fmap_cons.
    subst ck. rewrite lookup_insert_eq. simpl.
    destruct (Value <$> filter _ ps) as [|v vs].
    + reflexivity.
    + rewrite <- app_assoc. reflexivity.
  - rewrite filter_cons_False by exact E.
    rewrite lookup_insert_ne by exact E. reflexivity.
Qed.

(** *** The shape of a materialized request *)

Lemma make_fold_headers (hs : list Param) (q0 : nethttp.Request) :
  foldl (fun req header =>
           nethttp.set_Header
             (Header_Add (nethttp.Header req) (Key header) (Value header)) req)
        q0 hs =
  nethttp.set_Header
    (foldl (fun h header => Header_Add h (Key header) (Value header))
           (nethttp.Header q0) hs) q0.
Proof.
  revert q0. induction hs as [|h hs IH]; intros q0; simpl.
  - destruct q0; reflexivity.
  - rewrite IH. reflexivity.
Qed.

Lemma make_shape m :
  make m =
  (match http_NewRequest (Method (self m)) (URL (self m)) (Body (self m)) with
   | inr _ => None
   | inl req0 =>
       Some (nethttp.mkRequest
               (nethttp.Method req0)
               (url.set_RawQuery
                  (Values_Encode
                     (foldl (fun q query =>
                               url.Values_Add q (Key query) (Value query))
                            (URL_Query (nethttp.URL req0)) (Query (self m))))
                  (nethttp.URL req0))
               (foldl (fun h header => Header_Add h (Key header) (Value header))
                      (nethttp.Header req0) (Headers (self m)))
               (Some http_NoBody)
               (nethttp.ContentLength req0))
   end, m).
Proof.
  unfold make, bind, this.
  destruct (http_NewRequest _ _ _) as [req0|err]; [|reflexivity].
  rewrite make_fold_headers. reflexivity.
Qed.

(** X1: [make] fails exactly when [http.NewRequest] rejects the method, URL
    and body; the headers and query parameters play no part in it. *)
Theorem make_fails_iff_NewRequest_fails m :
  result make m = None <->
  exists err,
    http_NewRequest (Method (self m)) (URL (self m)) (Body (self m)) = inr err.
Proof.
  unfold result. rewrite make_shape. simpl.
  destruct (http_NewRequest _ _ _) as [req0|err]; split.
  - discriminate.
  - intros [e [=]].
  - intros _. exists err. reflexivity.
  - reflexivity.
Qed.

(** X2: when [http.NewRequest] accepts the request, [make] succeeds and the
    native header map holds, under each canonical key, what was there
    followed by the values of the Request's headers with that canonical key,
    in insertion order and with duplicates kept. *)
Theorem make_forwards_headers m (req0 : nethttp.Request) :
  http_NewRequest (Method (self m)) (URL (self m)) (Body (self m)) = inl req0 ->
  exists req,
    result make m = Some req
    /\ forall ck,
         nethttp.Header req !! ck =
         match Value <$> filter (fun p => CanonicalMIMEHeaderKey (Key p) = ck)
                                (Headers (self m)) with
         | [] => nethttp.Header req0 !! ck
         | vs => Some (default [] (nethttp.Header req0 !! ck) ++ vs)
         end.
Proof.
  intros Hnew. unfold result. rewrite make_shape, Hnew. simpl.
  eexists. split; [reflexivity|]. intros ck. simpl.
  apply (foldl_append_lookup CanonicalMIMEHeaderKey).
Qed.

(** X3: when [http.NewRequest] accepts the request, the raw query of the
    materialized URL is the encoding of a value map that holds, under each
    key, what the URL already carried followed by the values of the Request's
    query parameters with that key, in insertion order. *)
Theorem make_forwards_query m (req0 : nethttp.Request) :
  http_NewRequest (Method (self m)) (URL (self m)) (Body (self m)) = inl req0 ->
  exists req q,
    result make m = Some req
    /\ url.RawQuery (nethttp.URL req) = Values_Encode q
    /\ forall k,
         q !! k =
         match Value <$> filter (fun p => Key p = k) (Query (self m)) with
         | [] => URL_Query (nethttp.URL req0) !! k
         | vs => Some (default [] (URL_Query (nethttp.URL req0) !! k) ++ vs)
         end.
Proof.
  intros Hnew. unfold result. rewrite make_shape, Hnew. simpl.
  eexists. eexists. split; [reflexivity|]. split; [reflexivity|].
  intros k. apply (foldl_append_lookup (fun key => key)).
Qed.

(** X4: apart from the header map, the raw query and the body, [make] hands
    on what [http.NewRequest] built: the method, the content length (that of
    the body which is then dropped) and the other parts of the URL. *)
Theorem make_keeps_method_length_url m (req0 req : nethttp.Request) :
  http_NewRequest (Method (self m)) (URL (self m)) (Body (self m)) = inl req0 ->
  result make m = Some req ->
  nethttp.Method req = nethttp.Method req0
  /\ nethttp.ContentLength req = nethttp.ContentLength req0
  /\ url.Scheme (nethttp.URL req) = url.Scheme (nethttp.URL req0)
  /\ url.Host (nethttp.URL req) = url.Host (nethttp.URL req0)
  /\ url.Path (nethttp.URL req) = url.Path (nethttp.URL req0)
  /\ url.Fragment (nethttp.URL req) = url.Fragment (nethttp.URL req0).
Proof.
  intros Hnew. unfold result. rewrite make_shape, Hnew. simpl.
  intros [= <-]. repeat split.
Qed.

(** *** Send *)

Lemma Send_run m :
  Send m =
  let t0 := fst (time_Now (world m)) in
  let w1 := snd (time_Now (world m)) in
  match result make m with
  | None => ((None, None), mkMachine _ (self m) w1)
  | Some req =>
      match fst (Client_Do req w1) with
      | inr err =>
          ((None, Some err), mkMachine _ (self m) (snd (Client_Do req w1)))
      | inl resp =>
          let w2 := snd (Client_Do req w1) in
          ((Some (Response.mk (nethttp.StatusCode resp)
                              (time.Sub (fst (time_Now w2)) t0)
                              (nethttp.RespBody resp) []), None),
           mkMachine _ (self m) (snd (time_Now w2)))
      end
  end.
Proof.
  unfold Send, bind, result.
  destruct (time_Now (world m)) as [t0 w1] eqn:Estart.
  erewrite sys_run by exact Estart. simpl.
  rewrite make_shape. rewrite (make_shape m). simpl.
  destruct (http_NewRequest _ _ _) as [req0|e]; [|reflexivity].
  match goal with |- context [sys (Client_Do ?r) _] => set (req := r) end.
  destruct (Client_Do req w1) as [done w2] eqn:Edo.
  erewrite sys_run by (simpl; exact Edo). simpl.
  destruct done as [resp|err]; [|reflexivity].
  destruct (time_Now w2) as [t1 w3] eqn:Eend.
  erewrite sys_run by (simpl; exact Eend). reflexivity.
Qed.

(** X5: [Send] returns (nil, nil) only when materialization failed: the pair
    of nils is exactly the signal of a request that [make] could not
    build. *)
Theorem Send_nil_nil_iff_make_fails m :
  result Send m = (None, None) <-> result make m = None.
Proof.
  unfold result at 1. rewrite Send_run. cbv zeta.
  destruct (result make m) as [req|]; [|split; reflexivity].
  destruct (fst (Client_Do req _)) as [resp|err]; simpl;
    split; discriminate.
Qed.

(** X6: [Send] never modifies the Request it is called on, whichever way it
    returns. *)
Theorem Send_keeps_receiver m : after Send m = self m.
Proof.
  unfold after. rewrite Send_run. cbv zeta.
  destruct (result make m) as [req|]; [|reflexivity].
  destruct (fst (Client_Do req _)) as [resp|err]; reflexivity.
Qed.

(** X7: when the client fails, [Send] returns a nil Response with the
    client's error as it is, and does not read the clock a second time. *)
Theorem Send_transport_failure m (req : nethttp.Request) (err : error) :
  result make m = Some req ->
  fst (Client_Do req (snd (time_Now (world m)))) = inr err ->
  result Send m = (None, Some err)
  /\ world (snd (Send m)) = snd (Client_Do req (snd (time_Now (world m)))).
Proof.
  intros Hmake Hdo. unfold result at 1. rewrite Send_run. cbv zeta.
  rewrite Hmake, Hdo. split; reflexivity.
Qed.

(** X8: when materialization fails, [Send] has read the clock once and done
    nothing else: the client is not called. *)
Theorem Send_no_call_when_make_fails m :
  result make m = None ->
  world (snd (Send m)) = snd (time_Now (world m)).
Proof.
  intros Hmake. rewrite Send_run. cbv zeta. rewrite Hmake. reflexivity.
Qed.

(** *** Getters against adders *)

Lemma existsb_key_present (ps : list Param) key (p : Param) :
  p ∈ ps -> Key p = key ->
  existsb (fun q => String.eqb (Key q) key) ps = true.
Proof.
  intros Hp Hk. apply existsb_exists. exists p. split.
  - apply list_elem_of_In. exact Hp.
  - rewrite Hk. apply String.eqb_refl.
Qed.

Lemma GetHeader_range_other (ps : list Param) key key' value :
  key' <> key ->
  GetHeader_range (ps ++ [newParam key' value]) key = GetHeader_range ps key.
Proof.
  intros Hne. induction ps as [|p ps IH]; simpl.
  - destruct (String.eqb_spec key' key) as [E|_]; [contradiction|reflexivity].
  - rewrite IH. reflexivity.
Qed.

(** X9: on a Request that has no query parameter with the given key,
    [AddQuery(key, value)] followed by [GetQuery(key)] returns [value], and
    [GetQuery(key)] alone returns the empty string. *)
Theorem AddQuery_GetQuery_fresh_key m key value :
  (forall p, p ∈ Query (self m) -> Key p <> key) ->
  result (AddQuery key value ;; GetQuery key) m = value
  /\ result (GetQuery key) m = "".
Proof.
  intros Hno. unfold result, bind, AddQuery, GetQuery, bind, this, assign, ret.
  simpl. rewrite !GetQuery_range_eq. split.
  - rewrite GetHeader_range_app, (existsb_key_absent _ _ Hno). simpl.
    rewrite String.eqb_refl. reflexivity.
  - apply GetHeader_range_absent. exact Hno.
Qed.

(** X10: adding a header or a query parameter under another key changes what
    neither getter returns for this key, and the two sequences do not mix:
    [AddQuery] is invisible to [GetHeader] and [AddHeader] to [GetQuery],
    even under the same key. *)
Theorem adders_do_not_interfere m key key' value :
  key' <> key ->
  result (AddHeader key' value ;; GetHeader key) m = result (GetHeader key) m
  /\ result (AddQuery key' value ;; GetQuery key) m = result (GetQuery key) m
  /\ result (AddQuery key value ;; GetHeader key) m = result (GetHeader key) m
  /\ result (AddHeader key value ;; GetQuery key) m = result (GetQuery key) m.
Proof.
  intros Hne.
  unfold result, bind, AddHeader, AddQuery, GetHeader, GetQuery, bind, this,
    assign, ret. simpl.
  split; [apply GetHeader_range_other; exact Hne|].
  split; [|split; reflexivity].
  rewrite !GetQuery_range_eq. apply GetHeader_range_other. exact Hne.
Qed.

(** X11: once a header with the given key is present, adding another one
    under that key does not change what [GetHeader] returns: the first one
    added keeps shadowing the later ones.  The same holds for the query. *)
Theorem first_added_shadows_later m key value :
  ((exists p, p ∈ Headers (self m) /\ Key p = key) ->
   result (AddHeader key value ;; GetHeader key) m = result (GetHeader key) m)
  /\
  ((exists p, p ∈ Query (self m) /\ Key p = key) ->
   result (AddQuery key value ;; GetQuery key) m = result (GetQuery key) m).
Proof.
  unfold result, bind, AddHeader, AddQuery, GetHeader, GetQuery, bind, this,
    assign, ret. simpl.
  split; intros [p [Hp Hk]].
  - rewrite GetHeader_range_app, (existsb_key_present _ _ p Hp Hk).
    reflexivity.
  - rewrite !GetQuery_range_eq.
    rewrite GetHeader_range_app, (existsb_key_present _ _ p Hp Hk).
    reflexivity.
Qed.

(** *** The body encoders *)

(** X12: [AddBodyXML] appends the header [Content-Type: application/xml]
    whatever the encoder answers; when the encoder succeeds the body becomes
    a reader over its text, when it fails the body is left as it was; the
    query is never touched. *)
Theorem AddBodyXML_header_body_and_silent_failure (body : Any) m :
  Headers (after (AddBodyXML body) m) =
    Headers (self m) ++ [newParam "Content-Type" "application/xml"]
  /\ Query (after (AddBodyXML body) m) = Query (self m)
  /\ (forall b, xml_Marshal body = inl b ->
        Body (after (AddBodyXML body) m)
        = Some (io_NopCloser (strings_NewReader b)))
  /\ (forall err, xml_Marshal body = inr err ->
        Body (after (AddBodyXML body) m) = Body (self m)).
Proof.
  unfold after, AddBodyXML, bind. rewrite AddHeader_run.
  destruct (xml_Marshal body) as [b|e]; simpl.
  - split; [reflexivity|]. split; [reflexivity|].
    split; [intros b' [= <-]; reflexivity | intros err [=]].
  - split; [reflexivity|]. split; [reflexivity|].
    split; [intros b' [=] | intros err _; reflexivity].
Qed.

(** X13: when the JSON encoder succeeds, [AddBodyJSON] sets the body to a
    reader over the encoded text, replacing any earlier body, and appends
    exactly one header; the query is not touched. *)
Theorem AddBodyJSON_success (body : Any) (b : string) m :
  json_Marshal body = inl b ->
  Body (after (AddBodyJSON body) m) = Some (io_NopCloser (strings_NewReader b))
  /\ Headers (after (AddBodyJSON body) m) =
       Headers (self m) ++ [newParam "Content-Type" "application/json"]
  /\ Query (after (AddBodyJSON body) m) = Query (self m).
Proof.
  intros Hj. unfold after, AddBodyJSON, bind. rewrite AddHeader_run, Hj.
  repeat split.
Qed.

Lemma foldl_Values_Add_distinct (l : list (string * string))
    (acc : gmap string (list string)) :
  NoDup l.*1 ->
  (forall k, k ∈ l.*1 -> acc !! k = None) ->
  foldl (fun form kv => url.Values_Add form (fst kv) (snd kv)) acc l =
  ((fun v => [v]) <$> (list_to_map l : gmap string string)) ∪ acc.
Proof.
  revert acc. induction l as [|[k v] l IH]; intros acc Hnd Hfresh.
  - simpl. rewrite fmap_empty, (left_id_L ∅ (∪)). reflexivity.
  - simpl in Hnd |- *. apply NoDup_cons in Hnd as [Hk Hnd].
    unfold url.Values_Add at 2. simpl.
    rewrite (Hfresh k) by (simpl; left). simpl.
    rewrite IH; [|exact Hnd|].
    + rewrite fmap_insert, <- insert_union_l.
      rewrite <- insert_union_r; [reflexivity|].
      rewrite lookup_fmap. apply fmap_None.
      apply not_elem_of_list_to_map_1. exact Hk.
    + intros k' Hk'. rewrite lookup_insert_ne.
      * apply Hfresh. simpl. right. exact Hk'.
      * intros ->. contradiction.
Qed.

(** X14: [AddBodyForm] always sets the body, to a reader over the encoding
    of the form that maps each key of the argument to its single value,
    whatever the order in which the loop visits the map; it appends the
    header [Content-Type: application/x-www-form-urlencoded].  The only
    assumption is that the loop visits each entry of the map once. *)
Theorem AddBodyForm_order_independent (body : gmap string string) m :
  map_range body ≡ₚ map_to_list body ->
  Body (after (AddBodyForm body) m) =
    Some (io_NopCloser
            (strings_NewReader (Values_Encode ((fun v => [v]) <$> body))))
  /\ Headers (after (AddBodyForm body) m) =
       Headers (self m)
       ++ [newParam "Content-Type" "application/x-www-form-urlencoded"].
Proof.
  intros Hperm. unfold after, AddBodyForm, bind. rewrite AddHeader_run.
  cbv zeta. rewrite AddBodyString_run. simpl. split; [|reflexivity].
  assert (Hnd : NoDup (map_range body).*1).
  { rewrite Hperm. apply NoDup_fst_map_to_list. }
  rewrite foldl_Values_Add_distinct;
    [|exact Hnd | intros k _; apply lookup_empty].
  rewrite (right_id_L ∅ (∪)).
  rewrite (list_to_map_proper _ _ Hnd Hperm), list_to_map_to_list.
  reflexivity.
Qed.

(** *** What a sequence of calls appends *)

Lemma appends_ret {A} (a : A) : appends [] [] (ret a).
Proof. intros m. rewrite !app_nil_r. split; reflexivity. Qed.

Lemma appends_this : appends [] [] this.
Proof. intros m. rewrite !app_nil_r. split; reflexivity. Qed.

Lemma appends_sys {A} (f : World -> A * World) : appends [] [] (sys f).
Proof. intros m. rewrite sys_self, !app_nil_r. split; reflexivity. Qed.

Lemma appends_set_Body (b : option Reader) : appends [] [] (assign (set_Body b)).
Proof. intros m. rewrite !app_nil_r. split; reflexivity. Qed.

Lemma appends_bind {A B} hs1 qs1 hs2 qs2 hs qs (c : M A) (k : A -> M B) :
  appends hs1 qs1 c -> (forall a, appends hs2 qs2 (k a)) ->
  hs = hs1 ++ hs2 -> qs = qs1 ++ qs2 ->
  appends hs qs (bind c k).
Proof.
  intros Hc Hk -> -> m. unfold bind.
  destruct (c m) as [a m1] eqn:E.
  destruct (Hk a m1) as [H1 H2]. destruct (Hc m) as [H3 H4].
  rewrite E in H3, H4. simpl in H3, H4.
  rewrite H1, H2, H3, H4, !app_assoc. split; reflexivity.
Qed.

Lemma appends_AddHeader key value :
  appends [newParam key value] [] (AddHeader key value).
Proof. intros m. rewrite app_nil_r. split; reflexivity. Qed.

Lemma appends_AddQuery key value :
  appends [] [newParam key value] (AddQuery key value).
Proof. intros m. rewrite app_nil_r. split; reflexivity. Qed.

(** After its header, an encoder only assigns the body or returns. *)
Ltac after_header :=
  eapply appends_bind;
    [apply appends_AddHeader | intros _ | reflexivity | reflexivity].

Lemma appends_call (op : Op) :
  appends (added_headers op) (added_queries op) (call op).
Proof.
  destruct op; simpl.
  - apply appends_AddHeader.
  - apply appends_AddQuery.
  - apply appends_set_Body.
  - apply appends_set_Body.
  - after_header.
    destruct (json_Marshal body); [apply appends_set_Body | apply appends_ret].
  - after_header.
    destruct (xml_Marshal body); [apply appends_set_Body | apply appends_ret].
  - after_header. cbv zeta. apply appends_set_Body.
  - after_header.
    eapply appends_bind;
      [apply appends_sys | intros w | reflexivity | reflexivity].
    cbv zeta. apply appends_set_Body.
  - after_header.
    eapply appends_bind;
      [apply appends_sys | intros w | reflexivity | reflexivity].
    cbv zeta.
    destruct (Writer_CreateFormFile _ _ _) as [fw|e]; [|apply appends_ret].
    eapply appends_bind;
      [apply appends_sys | intros [f|e] | reflexivity | reflexivity];
      [|apply appends_ret].
    eapply appends_bind;
      [apply appends_sys | intros [w' e] | reflexivity | reflexivity].
    cbv zeta.
    eapply appends_bind;
      [apply appends_set_Body | intros _ | reflexivity | reflexivity].
    apply appends_sys.
  - intros m. rewrite !app_nil_r. split; reflexivity.
  - intros m. rewrite !app_nil_r. split; reflexivity.
Qed.

Lemma appends_calls (ops : list Op) :
  appends (flat_map added_headers ops) (flat_map added_queries ops) (calls ops).
Proof.
  induction ops as [|op ops IH]; simpl.
  - apply appends_ret.
  - eapply appends_bind;
      [apply appends_call | intros _; exact IH | reflexivity | reflexivity].
Qed.

(** X17: over any sequence of calls the headers and the query only grow, at
    the end and in call order: the headers by one Param per [AddHeader] and
    one Content-Type per [AddBody...] encoder call, whether or not that call
    managed to set a body; the query by one Param per [AddQuery].  Nothing
    is removed, replaced or reordered. *)
Theorem calls_append_exactly (ops : list Op) m :
  Headers (after (calls ops) m) = Headers (self m) ++ flat_map added_headers ops
  /\ Query (after (calls ops) m) = Query (self m) ++ flat_map added_queries ops.
Proof. apply (appends_calls ops m). Qed.

(** X18: a key that [GetHeader] (or [GetQuery]) can find keeps the value it
    has through every later sequence of calls. *)
Theorem getters_stable_under_calls (ops : list Op) m key :
  ((exists p, p ∈ Headers (self m) /\ Key p = key) ->
   result (GetHeader key) (snd (calls ops m)) = result (GetHeader key) m)
  /\
  ((exists p, p ∈ Query (self m) /\ Key p = key) ->
   result (GetQuery key) (snd (calls ops m)) = result (GetQuery key) m).
Proof.
  destruct (appends_calls ops m) as [Hh Hq].
  unfold result, GetHeader, GetQuery, bind, this, ret. simpl.
  rewrite Hh, Hq. split; intros [p [Hp Hk]].
  - rewrite GetHeader_range_app, (existsb_key_present _ _ p Hp Hk).
    reflexivity.
  - rewrite (GetQuery_range_eq (Query (self m) ++ _)),
      (GetQuery_range_eq (Query (self m))).
    rewrite GetHeader_range_app, (existsb_key_present _ _ p Hp Hk).
    reflexivity.
Qed.

(** X19: the headers are first-match while the body is last-write.  On a
    Request with no Content-Type yet, [AddBodyJSON] followed by a successful
    [AddBodyXML] leaves the XML text as body while [GetHeader] still answers
    [application/json]; both Content-Type headers are kept. *)
Theorem AddBodyJSON_then_AddBodyXML (b1 b2 : Any) (x : string) m :
  (forall p, p ∈ Headers (self m) -> Key p <> "Content-Type") ->
  xml_Marshal b2 = inl x ->
  let m' := snd ((AddBodyJSON b1 ;; AddBodyXML b2) m) in
  Body (self m') = Some (io_NopCloser (strings_NewReader x))
  /\ result (GetHeader "Content-Type") m' = "application/json"
  /\ Headers (self m') =
       Headers (self m) ++ [newParam "Content-Type" "application/json";
                            newParam "Content-Type" "application/xml"].
Proof.
  intros Hno Hx. unfold bind.
  destruct (AddBodyJSON b1 m) as [[] m1] eqn:E1. cbv zeta.
  assert (Hh1 : Headers (self m1) =
                Headers (self m) ++ [newParam "Content-Type" "application/json"]).
  { destruct (appends_call (OpAddBodyJSON b1) m) as [Hh _].
    simpl in Hh. rewrite E1 in Hh. exact Hh. }
  unfold AddBodyXML, bind. rewrite AddHeader_run, Hx, AddBodyString_run.
  unfold result, GetHeader, bind, this, ret. simpl. rewrite Hh1.
  split; [reflexivity|]. split.
  - rewrite <- app_assoc.
    rewrite GetHeader_range_app, (existsb_key_absent _ _ Hno). reflexivity.
  - rewrite <- app_assoc. reflexivity.
Qed.

(** *** The body *)

Lemma keeps_body_bind {A B} (c : M A) (k : A -> M B) :
  keeps_body c -> (forall a, keeps_body (k a)) -> keeps_body (bind c k).
Proof.
  intros Hc Hk m. unfold bind.
  destruct (c m) as [a m1] eqn:E.
  rewrite (Hk a m1). specialize (Hc m). rewrite E in Hc. exact Hc.
Qed.

Lemma keeps_body_call (op : Op) : is_body_op op = false -> keeps_body (call op).
Proof.
  destruct op; simpl; try discriminate; intros _ m; reflexivity.
Qed.

(** X20: only the [AddBody...] calls can change the body: over a sequence of
    [AddHeader], [AddQuery], [GetHeader] and [GetQuery] calls it stays what
    it was. *)
Theorem body_changed_only_by_AddBody (ops : list Op) m :
  forallb (fun op => negb (is_body_op op)) ops = true ->
  Body (after (calls ops) m) = Body (self m).
Proof.
  unfold after. revert m. induction ops as [|op ops IH]; intros m Hall.
  - reflexivity.
  - simpl in Hall. apply andb_true_iff in Hall as [Hop Hall].
    apply negb_true_iff in Hop.
    simpl. apply (keeps_body_bind (call op) (fun _ => calls ops)).
    + apply keeps_body_call. exact Hop.
    + intros _ m1. apply IH. exact Hall.
Qed.

(** *** The file of a multipart body *)

(** X15: once the file part is created and the file opened,
    [AddBodyMultipartFormFile] sets the body to the buffer of the closed
    writer, whatever error the copy reported, appends its Content-Type
    header, and closes the file before it returns. *)
Theorem AddBodyMultipartFormFile_opened_file m body fileKey fileName filePath
    (fw : MultipartWriter) (f : File) :
  let w1 := snd (multipart_NewWriter (world m)) in
  let w2 := snd (os_Open filePath w1) in
  let done := AddBodyMultipartFormFile body fileKey fileName filePath m in
  Writer_CreateFormFile
    (foldl (fun w kv => Writer_WriteField w (fst kv) (snd kv))
           (fst (multipart_NewWriter (world m))) (map_range body))
    fileKey fileName = inl fw ->
  fst (os_Open filePath w1) = inl f ->
  Body (self (snd done)) =
    Some (bytes_Buffer
            (Writer_Buffer (Writer_Close (fst (fst (io_Copy fw f w2))))))
  /\ Headers (self (snd done)) =
       Headers (self m) ++ [newParam "Content-Type" "multipart/form-data"]
  /\ world (snd done) = File_Close f (snd (io_Copy fw f w2)).
Proof.
  intros w1 w2 done Hc Ho. subst w1 w2 done.
  unfold AddBodyMultipartFormFile, bind.
  rewrite AddHeader_run.
  destruct (multipart_NewWriter (world m)) as [w0 w1] eqn:Enew.
  erewrite sys_run by (simpl; exact Enew). simpl in Hc, Ho |- *.
  rewrite Hc.
  destruct (os_Open filePath w1) as [[f'|e] w2] eqn:Eopen; simpl in Ho |- *;
    [|discriminate].
  injection Ho as ->.
  erewrite sys_run by (simpl; exact Eopen).
  destruct (io_Copy fw f w2) as [[w' e] w3] eqn:Ecopy.
  erewrite sys_run by (simpl; exact Ecopy).
  repeat split.
Qed.

(** X16: when the file cannot be opened, [AddBodyMultipartFormFile] leaves
    the body and the query as they were and keeps the Content-Type header it
    appended on entry. *)
Theorem AddBodyMultipartFormFile_unopenable_file m body fileKey fileName
    filePath (err : error) :
  fst (os_Open filePath (snd (multipart_NewWriter (world m)))) = inr err ->
  Body (after (AddBodyMultipartFormFile body fileKey fileName filePath) m)
    = Body (self m)
  /\ Headers (after (AddBodyMultipartFormFile body fileKey fileName filePath) m)
     = Headers (self m) ++ [newParam "Content-Type" "multipart/form-data"]
  /\ Query (after (AddBodyMultipartFormFile body fileKey fileName filePath) m)
     = Query (self m).
Proof.
  intros Ho.
  destruct (AddBodyMultipartFormFile_open_fails m body fileKey fileName
              filePath err Ho) as [Hb Hh].
  split; [exact Hb|]. split; [exact Hh|].
  destruct (appends_call
              (OpAddBodyMultipartFormFile body fileKey fileName filePath) m)
    as [_ Hq].
  simpl in Hq. rewrite app_nil_r in Hq. exact Hq.
Qed.

(** *** A Request built from scratch *)

(** X21: a Request straight from [NewRequest] has no body and answers the
    empty string to every [GetHeader] and [GetQuery]; after any sequence of
    calls its headers and query are exactly what those calls appended, in
    call order. *)
Theorem NewRequest_starts_empty (method url key : string) (ops : list Op)
    (w : World) :
  let m := mkMachine _ (NewRequest method url) w in
  Body (self m) = None
  /\ result (GetHeader key) m = ""
  /\ result (GetQuery key) m = ""
  /\ Headers (after (calls ops) m) = flat_map added_headers ops
  /\ Query (after (calls ops) m) = flat_map added_queries ops.
Proof.
  intros m. destruct (appends_calls ops m) as [Hh Hq].
  repeat split; [exact Hh | exact Hq].
Qed.

End MoreFacts.

(** ** The model at work on the test platform *)

Import TestPlatform.

(** The package's own tests, replayed. *)
Example TestEmptyRequest :
  Method fresh = "GET" /\ URL fresh = "http://example.com".
Proof. split; reflexivity. Qed.

Example TestRequestHeaders :
  result (GetHeader "Content-Type") (machine with_body) = "application/json"
  /\ result (GetHeader "Accept") (machine with_body) = "application/json"
  /\ result (GetQuery "foo") (machine with_body) = "bar"
  /\ result (GetQuery "baz") (machine with_body) = "qux"
  /\ result (GetHeader "Content-Type") (machine fresh) = ""
  /\ result (GetQuery "foo") (machine fresh) = "".
Proof. repeat split. Qed.

Example TestMake :
  (URL_String ∘ nethttp.URL) <$> result make (machine with_body)
    = Some "http://example.com?baz=qux&foo=bar"
  /\ (fun req => nethttp.Header req !! "Content-Type")
       <$> result make (machine with_body)
     = Some (Some ["application/json"]).
Proof. split; vm_compute; reflexivity. Qed.

Example TestAddBodyJSON :
  Body (after (AddBodyJSON (VString "bar")) (machine fresh)) <> None
  /\ Body (after (AddBodyJSON VChan) (machine fresh)) = None.
Proof. split; [discriminate | reflexivity]. Qed.

Example TestSend :
  result Send (machine fresh) =
  (Some (Response.mk 200 5001000 (Some (stream 0)) []), None).
Proof. vm_compute. reflexivity. Qed.

(** C1 at the request of [TestMakeWithBody]: the body [hello world] set by
    [AddBody] is not in the native request. *)
Lemma make_overwrites_body_witness :
  result make (machine with_body) = Some with_body_native
  /\ Body with_body = Some (strings_NewReader "hello world")
  /\ nethttp.Body with_body_native = Some http_NoBody.
Proof.
  assert (Hmake : result make (machine with_body) = Some with_body_native)
    by (vm_compute; reflexivity).
  split; [exact Hmake|]. split; [reflexivity|].
  exact (proj1 (make_overwrites_body (machine with_body) with_body_native
                  Hmake)).
Defined.

(** C2 at a request whose method is not a token. *)
Lemma Send_nil_nil_when_make_fails_witness :
  result make (machine malformed) = None
  /\ result Send (machine malformed) = (None, None).
Proof.
  assert (Hmake : result make (machine malformed) = None)
    by (vm_compute; reflexivity).
  split; [exact Hmake|].
  exact (Send_nil_nil_when_make_fails (machine malformed) Hmake).
Defined.

(** C3: the file at [/tmp] opens (it is a directory) but cannot be read;
    [io.Copy] reports the error, the code assigns it to [err] and goes on
    without looking at it, so the call sets the multipart body where the
    claim has it abort with no body set. *)
Theorem AddBodyMultipartFormFile_read_error_sets_body :
  fst (os_Open "/tmp" world0) = inl ("/tmp", Directory)
  /\ (forall (fw : Writer) (w : TWorld),
        snd (fst (io_Copy fw ("/tmp", Directory) w))
        = Some "read /tmp: is a directory")
  /\ Body (self (machine fresh)) = None
  /\ Body (after (AddBodyMultipartFormFile ∅ "file" "upload" "/tmp")
                 (machine fresh)) <> None
  /\ Headers (after (AddBodyMultipartFormFile ∅ "file" "upload" "/tmp")
                    (machine fresh))
     = [newParam "Content-Type" "multipart/form-data"].
Proof.
  split; [vm_compute; reflexivity|].
  split; [intros fw w; reflexivity|].
  split; [reflexivity|].
  split; [vm_compute; discriminate | vm_compute; reflexivity].
Qed.

(** C4 at a channel, which the JSON encoder refuses. *)
Lemma AddBodyJSON_header_and_silent_failure_witness :
  json_Marshal VChan = inr "json: unsupported type: chan int"
  /\ Headers (after (AddBodyJSON VChan) (machine fresh))
     = [newParam "Content-Type" "application/json"]
  /\ Body (after (AddBodyJSON VChan) (machine fresh)) = None.
Proof.
  pose proof (AddBodyJSON_header_and_silent_failure VChan (machine fresh))
    as [Hh Hb].
  split; [reflexivity|]. split; [exact Hh|].
  exact (proj1 (Hb "json: unsupported type: chan int" eq_refl)).
Defined.

(** C5 as stated fails: a header added under a key that is already present
    is not the one [GetHeader] returns. *)
Lemma AddHeader_GetHeader_returns_first_not_last :
  ~ (forall (m : @Machine platform) (key value : string),
       result (AddHeader key value ;; GetHeader key) m = value).
Proof.
  intros Hall.
  specialize (Hall (machine with_body) "Accept" "text/html").
  vm_compute in Hall. discriminate Hall.
Qed.

(** C5 as amended, at a key the request does not have yet. *)
Lemma AddHeader_GetHeader_fresh_key_witness :
  (forall p, p ∈ Headers with_body -> Key p <> "X-Trace")
  /\ result (AddHeader "X-Trace" "abc" ;; GetHeader "X-Trace")
            (machine with_body) = "abc"
  /\ result (GetHeader "X-Trace") (machine with_body) = "".
Proof.
  assert (Hno : forall p, p ∈ Headers with_body -> Key p <> "X-Trace").
  { intros p Hp. apply list_elem_of_In in Hp. simpl in Hp.
    destruct Hp as [<-|[<-|[]]]; discriminate. }
  split; [exact Hno|].
  exact (AddHeader_GetHeader_fresh_key (machine with_body) "X-Trace" "abc"
           Hno).
Defined.

(** C6 at a request with the key [Accept] twice: the earlier value wins. *)
Lemma GetHeader_GetQuery_first_match_witness :
  Headers repeated !! 1%nat = Some (newParam "Accept" "text/html")
  /\ (forall (j : nat) q, (j < 1)%nat -> Headers repeated !! j = Some q ->
                          Key q <> "Accept")
  /\ result (GetHeader "Accept") (machine repeated) = "text/html".
Proof.
  assert (Hbefore : forall (j : nat) q, (j < 1)%nat ->
            Headers repeated !! j = Some q -> Key q <> "Accept").
  { intros j q Hj Hq. destruct j as [|j]; [|lia].
    injection Hq as <-. discriminate. }
  split; [reflexivity|]. split; [exact Hbefore|].
  exact (proj1 (proj1 (GetHeader_GetQuery_first_match (machine repeated)
                         "Accept"))
           1%nat (newParam "Accept" "text/html") eq_refl eq_refl Hbefore).
Defined.

(** C7 at the request of [TestSend]. *)
Lemma Send_success_response_witness :
  result make (machine fresh) = Some fresh_native
  /\ fst (Client_Do fresh_native (snd (time_Now world0))) = inl ok_response
  /\ result Send (machine fresh) =
     (Some (Response.mk 200 5001000 (Some (stream 0)) []), None).
Proof.
  assert (Hmake : result make (machine fresh) = Some fresh_native)
    by (vm_compute; reflexivity).
  assert (Hdo : fst (Client_Do fresh_native (snd (time_Now world0)))
                = inl ok_response) by reflexivity.
  split; [exact Hmake|]. split; [exact Hdo|].
  exact (proj1 (Send_success_response (machine fresh) fresh_native
                  ok_response Hmake Hdo)).
Defined.

(** ** The further properties at work on the test platform *)

(** What [http.NewRequest] returns for [with_body], before [make] goes on. *)
Definition with_body_new : nethttp.Request :=
  nethttp.mkRequest "GET" (url.mkURL "http" "example.com" "" "" "") ∅
    (Some (io_NopCloser (strings_NewReader "hello world"))) 11.

(** A well-formed request to a host that does not exist. *)
Definition unreachable : Request := NewRequest "GET" "http://nowhere.invalid/x".

Definition unreachable_native : nethttp.Request :=
  nethttp.mkRequest "GET" (url.mkURL "http" "nowhere.invalid" "/x" "" "") ∅
    (Some http_NoBody) 0.

(** The file part that [CreateFormFile] opens on a fresh writer. *)
Definition upload_part : Writer :=
  match Writer_CreateFormFile (fst (multipart_NewWriter world0))
          "file" "h.txt" with
  | inl fw => fw
  | inr _ => mkWriter "" ""
  end.

Lemma make_forwards_headers_witness :
  http_NewRequest (Method with_body) (URL with_body) (Body with_body)
    = inl with_body_new
  /\ exists req,
       result make (machine with_body) = Some req
       /\ nethttp.Header req !! "Accept" = Some ["application/json"]
       /\ nethttp.Header req !! "accept" = None.
Proof.
  assert (Hnew : http_NewRequest (Method with_body) (URL with_body)
                   (Body with_body) = inl with_body_new)
    by (vm_compute; reflexivity).
  split; [exact Hnew|].
  destruct (make_forwards_headers (machine with_body) with_body_new Hnew)
    as [req [Hmake Hh]].
  exists req. split; [exact Hmake|].
  rewrite !Hh. split; vm_compute; reflexivity.
Defined.

Lemma make_forwards_query_witness :
  http_NewRequest (Method with_body) (URL with_body) (Body with_body)
    = inl with_body_new
  /\ exists req q,
       result make (machine with_body) = Some req
       /\ url.RawQuery (nethttp.URL req) = Values_Encode q
       /\ q !! "foo" = Some ["bar"]
       /\ q !! "page" = None.
Proof.
  assert (Hnew : http_NewRequest (Method with_body) (URL with_body)
                   (Body with_body) = inl with_body_new)
    by (vm_compute; reflexivity).
  split; [exact Hnew|].
  destruct (make_forwards_query (machine with_body) with_body_new Hnew)
    as [req [q [Hmake [Hraw Hq]]]].
  exists req, q. split; [exact Hmake|]. split; [exact Hraw|].
  rewrite !Hq. split; vm_compute; reflexivity.
Defined.

Lemma make_keeps_method_length_url_witness :
  http_NewRequest (Method with_body) (URL with_body) (Body with_body)
    = inl with_body_new
  /\ result make (machine with_body) = Some with_body_native
  /\ nethttp.Body with_body_native = Some http_NoBody
  /\ nethttp.ContentLength with_body_native = 11.
Proof.
  assert (Hnew : http_NewRequest (Method with_body) (URL with_body)
                   (Body with_body) = inl with_body_new)
    by (vm_compute; reflexivity).
  assert (Hmake : result make (machine with_body) = Some with_body_native)
    by (vm_compute; reflexivity).
  split; [exact Hnew|]. split; [exact Hmake|]. split; [reflexivity|].
  exact (proj1 (proj2 (make_keeps_method_length_url (machine with_body)
                         with_body_new with_body_native Hnew Hmake))).
Defined.

Lemma Send_transport_failure_witness :
  result make (machine unreachable) = Some unreachable_native
  /\ fst (Client_Do unreachable_native (snd (time_Now world0)))
     = inr "dial tcp: lookup: no such host"
  /\ result Send (machine unreachable)
     = (None, Some "dial tcp: lookup: no such host").
Proof.
  assert (Hmake : result make (machine unreachable) = Some unreachable_native)
    by (vm_compute; reflexivity).
  assert (Hdo : fst (Client_Do unreachable_native (snd (time_Now world0)))
                = inr "dial tcp: lookup: no such host") by reflexivity.
  split; [exact Hmake|]. split; [exact Hdo|].
  exact (proj1 (Send_transport_failure (machine unreachable)
                  unreachable_native _ Hmake Hdo)).
Defined.

Lemma Send_no_call_when_make_fails_witness :
  result make (machine malformed) = None
  /\ clock (world (snd (Send (machine malformed)))) = 1000.
Proof.
  assert (Hmake : result make (machine malformed) = None)
    by (vm_compute; reflexivity).
  split; [exact Hmake|].
  rewrite (Send_no_call_when_make_fails (machine malformed) Hmake).
  reflexivity.
Defined.

Lemma AddQuery_GetQuery_fresh_key_witness :
  (forall p, p ∈ Query with_body -> Key p <> "page")
  /\ result (AddQuery "page" "2" ;; GetQuery "page") (machine with_body) = "2"
  /\ result (GetQuery "page") (machine with_body) = "".
Proof.
  assert (Hno : forall p, p ∈ Query with_body -> Key p <> "page").
  { intros p Hp. apply list_elem_of_In in Hp. simpl in Hp.
    destruct Hp as [<-|[<-|[]]]; discriminate. }
  split; [exact Hno|].
  exact (AddQuery_GetQuery_fresh_key (machine with_body) "page" "2" Hno).
Defined.

Lemma adders_do_not_interfere_witness :
  "Accept" <> "Content-Type"
  /\ result (AddHeader "Accept" "text/html" ;; GetHeader "Content-Type")
            (machine with_body) = "application/json"
  /\ result (AddQuery "Content-Type" "text/html" ;; GetHeader "Content-Type")
            (machine with_body) = "application/json".
Proof.
  assert (Hne : "Accept" <> "Content-Type") by discriminate.
  pose proof (adders_do_not_interfere (machine with_body) "Content-Type"
                "Accept" "text/html" Hne) as [H1 [_ [H3 _]]].
  split; [exact Hne|]. split; [exact H1 | exact H3].
Defined.

Lemma first_added_shadows_later_witness :
  newParam "Accept" "application/json" ∈ Headers with_body
  /\ result (AddHeader "Accept" "text/html" ;; GetHeader "Accept")
            (machine with_body) = "application/json".
Proof.
  assert (Hin : newParam "Accept" "application/json" ∈ Headers with_body).
  { apply list_elem_of_In. simpl. right. left. reflexivity. }
  split; [exact Hin|].
  rewrite (proj1 (first_added_shadows_later (machine with_body) "Accept"
                    "text/html")).
  - reflexivity.
  - exists (newParam "Accept" "application/json").
    split; [exact Hin | reflexivity].
Defined.

Lemma AddBodyXML_header_body_and_silent_failure_witness :
  xml_Marshal VChan = inr "xml: unsupported type: chan int"
  /\ Body (after (AddBodyXML VChan) (machine with_body))
     = Some (strings_NewReader "hello world")
  /\ xml_Marshal (VString "a") = inl "<string>a</string>"
  /\ Body (after (AddBodyXML (VString "a")) (machine with_body))
     = Some (io_NopCloser (strings_NewReader "<string>a</string>")).
Proof.
  pose proof (AddBodyXML_header_body_and_silent_failure VChan
                (machine with_body)) as [_ [_ [_ Hfail]]].
  pose proof (AddBodyXML_header_body_and_silent_failure (VString "a")
                (machine with_body)) as [_ [_ [Hok _]]].
  split; [reflexivity|].
  split; [exact (Hfail "xml: unsupported type: chan int" eq_refl)|].
  split; [reflexivity|].
  exact (Hok "<string>a</string>" eq_refl).
Defined.

Lemma AddBodyJSON_success_witness :
  json_Marshal (VString "bar") = inl (quote +:+ "bar" +:+ quote)
  /\ Body (after (AddBodyJSON (VString "bar")) (machine with_body))
     = Some (io_NopCloser (strings_NewReader (quote +:+ "bar" +:+ quote))).
Proof.
  split; [reflexivity|].
  exact (proj1 (AddBodyJSON_success (VString "bar") _ (machine with_body)
                  eq_refl)).
Defined.

Lemma AddBodyForm_order_independent_witness :
  map_to_list (<["foo" := "bar"]> (<["baz" := "q x"]> ∅) : gmap string string)
    ≡ₚ map_to_list (<["foo" := "bar"]> (<["baz" := "q x"]> ∅))
  /\ Body (after (AddBodyForm (<["foo" := "bar"]> (<["baz" := "q x"]> ∅)))
                 (machine fresh))
     = Some (io_NopCloser (strings_NewReader "baz=q+x&foo=bar")).
Proof.
  split; [reflexivity|].
  rewrite (proj1 (AddBodyForm_order_independent
                    (<["foo" := "bar"]> (<["baz" := "q x"]> ∅))
                    (machine fresh) (reflexivity _))).
  vm_compute. reflexivity.
Defined.

Lemma AddBodyMultipartFormFile_opened_file_witness :
  Writer_CreateFormFile (fst (multipart_NewWriter world0)) "file" "h.txt"
    = inl upload_part
  /\ fst (os_Open "/etc/hostname" (snd (multipart_NewWriter world0)))
     = inl ("/etc/hostname", Regular "builder")
  /\ Body (after (AddBodyMultipartFormFile ∅ "file" "h.txt" "/etc/hostname")
                 (machine fresh)) <> None
  /\ open_files
       (world (snd (AddBodyMultipartFormFile ∅ "file" "h.txt" "/etc/hostname"
                      (machine fresh)))) = 0%nat.
Proof.
  assert (Hc : Writer_CreateFormFile
                 (foldl (fun w kv => Writer_WriteField w (fst kv) (snd kv))
                        (fst (multipart_NewWriter world0))
                        (map_to_list (∅ : gmap string string)))
                 "file" "h.txt" = inl upload_part)
    by (vm_compute; reflexivity).
  assert (Ho : fst (os_Open "/etc/hostname" (snd (multipart_NewWriter world0)))
               = inl ("/etc/hostname", Regular "builder"))
    by (vm_compute; reflexivity).
  pose proof (AddBodyMultipartFormFile_opened_file (machine fresh) ∅ "file"
                "h.txt" "/etc/hostname" upload_part
                ("/etc/hostname", Regular "builder") Hc Ho) as [Hb [_ Hw]].
  split; [vm_compute; reflexivity|]. split; [exact Ho|]. split.
  - unfold after. rewrite Hb. discriminate.
  - rewrite Hw. vm_compute. reflexivity.
Defined.

Lemma AddBodyMultipartFormFile_unopenable_file_witness :
  fst (os_Open "/nope" (snd (multipart_NewWriter world0)))
    = inr "open /nope: no such file or directory"
  /\ Body (after (AddBodyMultipartFormFile ∅ "file" "h.txt" "/nope")
                 (machine with_body))
     = Some (strings_NewReader "hello world").
Proof.
  assert (Ho : fst (os_Open "/nope" (snd (multipart_NewWriter world0)))
               = inr "open /nope: no such file or directory")
    by (vm_compute; reflexivity).
  split; [exact Ho|].
  exact (proj1 (AddBodyMultipartFormFile_unopenable_file (machine with_body)
                  ∅ "file" "h.txt" "/nope" _ Ho)).
Defined.

(** Later calls that add the key [Accept] again, around a failing encoder. *)
Definition later_calls : list (@Op platform) :=
  [OpAddHeader "Accept" "text/html"; OpAddBodyXML VChan;
   OpAddHeader "Accept" "text/plain"].

Lemma getters_stable_under_calls_witness :
  newParam "Accept" "application/json" ∈ Headers with_body
  /\ result (GetHeader "Accept") (snd (calls later_calls (machine with_body)))
     = "application/json".
Proof.
  assert (Hin : newParam "Accept" "application/json" ∈ Headers with_body).
  { apply list_elem_of_In. simpl. right. left. reflexivity. }
  split; [exact Hin|].
  rewrite (proj1 (getters_stable_under_calls later_calls
                    (machine with_body) "Accept")).
  - reflexivity.
  - exists (newParam "Accept" "application/json").
    split; [exact Hin | reflexivity].
Defined.

(** Here the JSON encoder even fails: its header stays and wins. *)
Lemma AddBodyJSON_then_AddBodyXML_witness :
  (forall p, p ∈ Headers fresh -> Key p <> "Content-Type")
  /\ xml_Marshal (VString "a") = inl "<string>a</string>"
  /\ Body (self (snd ((AddBodyJSON VChan ;; AddBodyXML (VString "a"))
                        (machine fresh))))
     = Some (io_NopCloser (strings_NewReader "<string>a</string>"))
  /\ result (GetHeader "Content-Type")
            (snd ((AddBodyJSON VChan ;; AddBodyXML (VString "a"))
                    (machine fresh)))
     = "application/json".
Proof.
  assert (Hno : forall p, p ∈ Headers (self (machine fresh)) ->
                          Key p <> "Content-Type").
  { intros p Hp. apply list_elem_of_In in Hp. destruct Hp. }
  pose proof (AddBodyJSON_then_AddBodyXML VChan (VString "a")
                "<string>a</string>" (machine fresh) Hno eq_refl)
    as [Hb [Hg _]].
  split; [exact Hno|]. split; [reflexivity|]. split; [exact Hb | exact Hg].
Defined.

Lemma body_changed_only_by_AddBody_witness :
  forallb (fun op => negb (is_body_op op))
          [OpAddHeader "Accept" "text/html"; OpAddQuery "page" "2";
           OpGetHeader "Accept"; OpGetQuery "page"] = true
  /\ Body (after (calls [OpAddHeader "Accept" "text/html";
                         OpAddQuery "page" "2";
                         OpGetHeader "Accept"; OpGetQuery "page"])
                 (machine with_body))
     = Some (strings_NewReader "hello world").
Proof.
  split; [reflexivity|].
  exact (body_changed_only_by_AddBody
           ([OpAddHeader "Accept" "text/html"; OpAddQuery "page" "2";
             OpGetHeader "Accept"; OpGetQuery "page"] : list (@Op platform))
           (machine with_body) eq_refl).
Defined.
